(** * Quality-control predicates of [multipatch_analysis/qc.py]

    A shallow embedding of the two functions of the module,
    [recording_qc_pass] and [pulse_response_qc_pass], together with the
    properties that their specification states about them.

    Python floats are IEEE 754 binary64 numbers; they are modelled by
    [spec_float] of the Standard Library, whose comparison [SFcompare]
    is the IEEE comparison (a NaN compares false with everything, the two
    zeros are equal).  Python integers are [Z], strings are [string]. *)

From Stdlib Require Import ZArith List String Bool Lia Permutation.
From Stdlib Require Import Floats.SpecFloat.
Import ListNotations.

Local Open Scope string_scope.
Local Open Scope Z_scope.

(** ** Floating-point numbers *)

Module Float.

Definition t : Type := spec_float.

(** binary64: 53 bits of precision, exponents below 1024. *)
Definition prec : Z := 53.
Definition emax : Z := 1024.

Definition is_binary64 (x : t) : bool := valid_binary prec emax x.

Definition of_Z (n : Z) : t := binary_normalize prec emax n 0 false.

(** The value of a decimal literal [n e-k], read as the correctly
    rounded quotient of [n] by [10^k]; both are exactly representable
    for every literal of the module. *)
Definition literal (n : Z) (k : Z) : t :=
  SFdiv prec emax (of_Z n) (of_Z (10 ^ k)).

Definition zero : t := S754_zero false.
Definition nan : t := S754_nan.

Definition lt (x y : t) : bool := SFltb x y.
Definition gt (x y : t) : bool := SFltb y x.
Definition le (x y : t) : bool := SFleb x y.
Definition ge (x y : t) : bool := SFleb y x.
Definition eqb (x y : t) : bool := SFeqb x y.
Definition neg (x : t) : t := SFopp x.
Definition abs (x : t) : t := SFabs x.
Definition add (x y : t) : t := SFadd prec emax x y.
Definition sub (x y : t) : t := SFsub prec emax x y.
Definition mul (x y : t) : t := SFmul prec emax x y.
Definition div (x y : t) : t := SFdiv prec emax x y.
Definition sqrt (x : t) : t := SFsqrt prec emax x.

Definition is_nan (x : t) : bool :=
  match x with S754_nan => true | _ => false end.

End Float.

Declare Scope float_scope.
Delimit Scope float_scope with float.
Bind Scope float_scope with Float.t.
Abbreviation float := Float.t.
Infix "<?" := Float.lt (at level 70, no associativity) : float_scope.
Infix ">?" := Float.gt (at level 70, no associativity) : float_scope.
Infix "<=?" := Float.le (at level 70, no associativity) : float_scope.
Infix ">=?" := Float.ge (at level 70, no associativity) : float_scope.
Infix "=?" := Float.eqb (at level 70, no associativity) : float_scope.
Notation "- x" := (Float.neg x) : float_scope.

(** The literals of [qc.py].  A negative literal of the source is the
    unary minus applied to the positive one, as Python reads it. *)
Definition f800e_12 : float := Eval vm_compute in Float.literal 800 12.
Definition f85e_3 : float := Eval vm_compute in Float.literal 85 3.
Definition f45e_3 : float := Eval vm_compute in Float.literal 45 3.
Definition f5e_3 : float := Eval vm_compute in Float.literal 5 3.
Definition f200e_12 : float := Eval vm_compute in Float.literal 200 12.
Definition f1_5e_3 : float := Eval vm_compute in Float.literal 15 4.
Definition f40e_3 : float := Eval vm_compute in Float.literal 40 3.
Definition f15e_12 : float := Eval vm_compute in Float.literal 15 12.
Definition f8e_3 : float := Eval vm_compute in Float.literal 8 3.
Definition f60e_3 : float := Eval vm_compute in Float.literal 60 3.

(** Literals that only the specification's examples use. *)
Definition f84_999e_3 : float := Eval vm_compute in Float.literal 84999 6.
Definition f900e_12 : float := Eval vm_compute in Float.literal 900 12.
Definition f50e_3 : float := Eval vm_compute in Float.literal 50 3.
Definition f70e_3 : float := Eval vm_compute in Float.literal 70 3.
Definition f30e_3 : float := Eval vm_compute in Float.literal 30 3.
Definition f9e_3 : float := Eval vm_compute in Float.literal 9 3.
Definition f1e_3 : float := Eval vm_compute in Float.literal 1 3.
Definition f1_0 : float := Eval vm_compute in Float.of_Z 1.

(** ** Arrays and time series *)

(** The count of [True] in [data == 0]. *)
Fixpoint count_zero (data : list float) : Z :=
  match data with
  | [] => 0
  | x :: rest => (if (x =? Float.zero)%float then 1 else 0) + count_zero rest
  end.

Definition len {A : Type} (l : list A) : Z := Z.of_nat (List.length l).

(** One bound of a slice [a[i:j]]: a negative index counts from the end,
    and the result is clipped to the array. *)
Definition slice_bound (n i : Z) : Z :=
  if i <? 0 then Z.max 0 (i + n) else Z.min i n.

(** [a[start:stop]] *)
Definition slice {A : Type} (a : list A) (start stop : Z) : list A :=
  let lo := slice_bound (len a) start in
  let hi := slice_bound (len a) stop in
  firstn (Z.to_nat (hi - lo)) (skipn (Z.to_nat lo) a).

(** [channel[window[0]:window[1]]] *)
Definition window_of (channel : list float) (window : Z * Z) : list float :=
  slice channel (fst window) (snd window).

(** ** Recordings *)

(** The attributes of a [PatchClampRecording] that the module reads;
    [primary] and [command] are the sample arrays of the channels
    [rec['primary']] and [rec['command']]. *)
Record Recording : Type := mkRecording {
  clamp_mode : string;
  baseline_current : float;
  baseline_potential : float;
  baseline_rms_noise : float;
  primary : list float;
  command : list float
}.

(** ** Control flow

    Both functions are sequences of guarded early returns, and the second
    one can raise.  A statement either falls through to the next one,
    returns from the function, or raises. *)

Inductive flow (E R A : Type) : Type :=
| Next (a : A)
| Return (r : R)
| Raise (e : E).

Arguments Next {E R A} a.
Arguments Return {E R A} r.
Arguments Raise {E R A} e.

Definition bind {E R A B : Type} (c : flow E R A) (k : A -> flow E R B)
  : flow E R B :=
  match c with
  | Next a => k a
  | Return r => Return r
  | Raise e => Raise e
  end.

Notation "x <- c ;; k" := (bind c (fun x => k))
  (at level 61, c at next level, right associativity).
Notation "c ;; k" := (bind c (fun _ => k))
  (at level 61, right associativity).

(** [if b: stmt] with no [else]. *)
Definition when {E R : Type} (b : bool) (stmt : flow E R unit)
  : flow E R unit :=
  if b then stmt else Next tt.

(** What a call yields: a value or an exception. *)
Inductive result (E R : Type) : Type :=
| Ok (r : R)
| Error (e : E).

Arguments Ok {E R} r.
Arguments Error {E R} e.

Definition call {E R : Type} (body : flow E R R) : result E R :=
  match body with
  | Next r | Return r => Ok r
  | Raise e => Error e
  end.

(** A body that contains no [raise] yields a value. *)
Definition call_pure {R : Type} (body : flow Empty_set R R) : R :=
  match body with
  | Next r | Return r => r
  | Raise e => match e with end
  end.

(** ** recording_qc_pass (qc.py, lines 8-40) *)

Definition recording_qc_pass (rec : Recording) : bool :=
  call_pure (
    when ((baseline_current rec <? - f800e_12)
          || (baseline_current rec >? f800e_12))%float
      (Return false) ;;
    (if String.eqb (clamp_mode rec) "ic" then
       when ((baseline_potential rec <? - f85e_3)
             || (baseline_potential rec >? - f45e_3))%float
         (Return false) ;;
       when (baseline_rms_noise rec >? f5e_3)%float
         (Return false)
     else if String.eqb (clamp_mode rec) "vc" then
       when (baseline_rms_noise rec >? f200e_12)%float
         (Return false)
     else Next tt) ;;
    let data := primary rec in
    when (count_zero data >? len data / 10)
      (Return false) ;;
    Return true).

(** ** Exceptions and numpy reductions *)

Inductive exn : Type :=
| TypeError (msg : string)
| ValueError (msg : string).

(** [numpy.maximum]: the larger operand, a NaN operand wins. *)
Definition maximum (a b : float) : float :=
  if (a >=? b)%float || Float.is_nan a then a
  else b.

(** [a.max()] of a one-dimensional array; numpy refuses an empty one. *)
Definition ndarray_max {R : Type} (a : list float) : flow exn R float :=
  match a with
  | [] => Raise (ValueError
      "zero-size array to reduction operation maximum which has no identity")
  | x :: rest => Next (fold_left maximum rest x)
  end.

(** [any(l)] over a list of booleans. *)
Definition any (l : list bool) : bool := existsb (fun b => b) l.

(** [x == n] for [x] an integer or [None]. *)
Definition eq_int (x : option Z) (n : Z) : bool :=
  match x with
  | Some m => m =? n
  | None => false
  end.

(** [b is False] *)
Definition is_False (b : bool) : bool := negb b.

(** ** pulse_response_qc_pass (qc.py, lines 43-110)

    [TSeries.median] and [TSeries.std] belong to the time-series class of
    the acquisition library, which is not part of the module; the function
    is written over any implementation of the two. *)

Section PulseResponse.

Variable median : list float -> float.
Variable std : list float -> float.

(** Lines 83-97, "Check for noise in response window": falls through
    with [base], returns the failing pair, or raises. *)
Definition check_response_noise (post_rec : Recording) (window : Z * Z)
  : flow exn (bool * bool) float :=
  if String.eqb (clamp_mode post_rec) "ic" then
    let data := window_of (primary post_rec) window in
    let base := median data in
    when (std data >? f1_5e_3)%float
      (Return (false, false)) ;;
    top <- ndarray_max data ;;
    when (top >? - f40e_3)%float
      (Return (false, false)) ;;
    Next base
  else if String.eqb (clamp_mode post_rec) "vc" then
    let data := window_of (primary post_rec) window in
    let base := median (window_of (command post_rec) window) in
    when (std data >? f15e_12)%float
      (Return (false, false)) ;;
    Next base
  else
    Raise (TypeError ("Unsupported clamp mode " ++ clamp_mode post_rec)).

(** Lines 103-108, "Check holding potential is appropriate for each
    sign": one verdict per entry of [limits], excitatory first. *)
Definition limits : list (float * float) :=
  [ (- f85e_3, - f45e_3) ; (- f60e_3, - f45e_3) ]%float.

Definition check_holding_potential (base base2 : float) : bool * bool :=
  let qc_pass :=
    map (fun '(bmin, bmax) =>
           ((bmin <? base) && (base <? bmax)
            && ((bmin <? base2) && (base2 <? bmax)))%float)
        limits in
  (nth 0 qc_pass false, nth 1 qc_pass false).

Definition pulse_response_qc_pass (post_rec : Recording) (window : Z * Z)
    (n_spikes : option Z) (adjacent_pulses : list float)
  : result exn (bool * bool) :=
  call (
    (* Require the postsynaptic recording to pass basic QC *)
    when (is_False (recording_qc_pass post_rec))
      (Return (false, false)) ;;
    (* require at least 1 presynaptic spike *)
    when (eq_int n_spikes 0)
      (Return (false, false)) ;;
    (* Check for noise in response window *)
    base <- check_response_noise post_rec window ;;
    (* Check timing of adjacent spikes *)
    when (any (map (fun t => (Float.abs t <? f8e_3)%float) adjacent_pulses))
      (Return (false, false)) ;;
    (* Check holding potential is appropriate for each sign *)
    let base2 := baseline_potential post_rec in
    Return (check_holding_potential base base2)).

End PulseResponse.

(** ** A reference implementation of the statistics

    The median by sorting and the population standard deviation by two
    left-to-right passes, as [numpy.median] and [ndarray.std] define them.
    The theorems below hold for every implementation; this one is used to
    run the functions on concrete recordings. *)

Fixpoint insert_sorted (x : float) (l : list float) : list float :=
  match l with
  | [] => [x]
  | y :: rest =>
      if (x <=? y)%float then x :: l
      else y :: insert_sorted x rest
  end.

Definition sorted (a : list float) : list float :=
  fold_right insert_sorted [] a.

Definition fsum (a : list float) : float :=
  fold_left Float.add a Float.zero.

Definition mean (a : list float) : float :=
  Float.div (fsum a) (Float.of_Z (len a)).

Definition np_median (a : list float) : float :=
  if existsb Float.is_nan a then Float.nan
  else
    let s := sorted a in
    let n := List.length a in
    match n with
    | O => Float.nan
    | _ =>
        if Nat.odd n then nth (Nat.div n 2) s Float.nan
        else mean [nth (Nat.div n 2 - 1) s Float.nan;
                   nth (Nat.div n 2) s Float.nan]
    end.

Definition np_std (a : list float) : float :=
  let m := mean a in
  let dev := map (fun x => Float.sub x m) a in
  Float.sqrt (mean (map (fun d => Float.mul d d) dev)).

(** ** Recordings used to run the functions *)

Definition rec_ic : Recording :=
  mkRecording "ic" Float.zero (- f70e_3)%float f1e_3
    (repeat (- f70e_3)%float 20) [].

Definition rec_ic_overlap : Recording :=
  mkRecording "ic" Float.zero (- f50e_3)%float f1e_3
    (repeat (- f50e_3)%float 20) [].

Definition rec_ic_depolarised : Recording :=
  mkRecording "ic" Float.zero (- f50e_3)%float f1e_3
    (repeat (- f30e_3)%float 20) [].

Definition rec_ic_noisy : Recording :=
  mkRecording "ic" Float.zero (- f50e_3)%float f1e_3
    (List.concat (repeat [(- f50e_3)%float; (- f60e_3)%float] 10)) [].

(** Primary holds currents, command the holding potential. *)
Definition rec_vc : Recording :=
  mkRecording "vc" Float.zero (- f50e_3)%float f15e_12
    (repeat f15e_12 20) (repeat (- f50e_3)%float 20).

Definition rec_vc_noisy : Recording :=
  mkRecording "vc" Float.zero (- f50e_3)%float f15e_12
    (repeat f15e_12 10 ++ repeat f900e_12 10) (repeat (- f50e_3)%float 20).

Definition rec_xyz : Recording :=
  mkRecording "xyz" Float.zero Float.nan Float.nan [f1_0] [].

Definition rec_xyz_leaky : Recording :=
  mkRecording "xyz" f900e_12 Float.zero Float.zero [f1_0] [].

Definition rec_at_potential_limit : Recording :=
  mkRecording "ic" Float.zero (- f85e_3)%float Float.zero [f1_0] [].

Definition rec_near_potential_limit : Recording :=
  mkRecording "ic" Float.zero (- f84_999e_3)%float Float.zero [f1_0] [].

Definition rec_at_current_limit : Recording :=
  mkRecording "ic" f800e_12 (- f70e_3)%float Float.zero [f1_0] [].

Definition rec_hyperpolarised : Recording :=
  mkRecording "ic" Float.zero (- (Float.literal 90 3))%float Float.zero
    [f1_0] [].

(** A primary array of [z] zeros followed by [n - z] ones. *)
Definition rec_zeros (z n : nat) : Recording :=
  mkRecording "vc" Float.zero Float.zero Float.zero
    (repeat Float.zero z ++ repeat f1_0 (n - z)) [].

(** ** The guards of [recording_qc_pass], named

    Each is the condition of one [if] of the function (lines 25, 28 to 33
    and 37); [recording_qc_pass_guards] below relates them to it. *)

Definition current_out_of_range (rec : Recording) : bool :=
  ((baseline_current rec <? - f800e_12)
   || (baseline_current rec >? f800e_12))%float.

Definition potential_out_of_range (rec : Recording) : bool :=
  ((baseline_potential rec <? - f85e_3)
   || (baseline_potential rec >? - f45e_3))%float.

Definition mode_checks_fail (rec : Recording) : bool :=
  if String.eqb (clamp_mode rec) "ic" then
    potential_out_of_range rec || (baseline_rms_noise rec >? f5e_3)%float
  else if String.eqb (clamp_mode rec) "vc" then
    (baseline_rms_noise rec >? f200e_12)%float
  else false.

Definition too_many_zeros (rec : Recording) : bool :=
  count_zero (primary rec) >? len (primary rec) / 10.

(** The adjacent-pulse guard of [pulse_response_qc_pass] (line 100). *)
Definition pulse_too_close (adjacent_pulses : list float) : bool :=
  any (map (fun t => (Float.abs t <? f8e_3)%float) adjacent_pulses).

(** Strictly inside [(bmin, bmax)]. *)
Definition inside (bmin bmax x : float) : Prop :=
  (bmin <? x)%float = true /\ (x <? bmax)%float = true.

(** ** Recordings that differ in one attribute *)

Definition with_baseline_potential (rec : Recording) (v : float)
  : Recording :=
  mkRecording (clamp_mode rec) (baseline_current rec) v
    (baseline_rms_noise rec) (primary rec) (command rec).

Definition with_command (rec : Recording) (c : list float) : Recording :=
  mkRecording (clamp_mode rec) (baseline_current rec)
    (baseline_potential rec) (baseline_rms_noise rec) (primary rec) c.

(** More recordings to run the functions on. *)

Definition rec_nan : Recording :=
  mkRecording "ic" Float.nan Float.nan Float.nan [f1_0] [].

Definition rec_ic_loud : Recording :=
  mkRecording "ic" Float.zero (- f70e_3)%float f8e_3 [f1_0] [].

Definition rec_vc_loud : Recording :=
  mkRecording "vc" Float.zero (- f70e_3)%float f1e_3 [f1_0] [].

Definition rec_vc_nan_potential : Recording :=
  mkRecording "vc" Float.zero Float.nan f15e_12
    (repeat f15e_12 20) (repeat (- f50e_3)%float 20).

(** Held exactly on the lower limit of the potential. *)
Definition rec_limit_flat : Recording :=
  mkRecording "ic" Float.zero (- f85e_3)%float Float.zero
    (repeat (- f85e_3)%float 20) [].

Definition rec_silent : Recording :=
  mkRecording "ic" Float.zero (- f70e_3)%float Float.zero
    (repeat Float.zero 20) [].

Definition rec_short : Recording :=
  mkRecording "ic" Float.zero (- f70e_3)%float Float.zero
    (repeat f1_0 8 ++ [S754_zero true]) [].

Definition rec_no_samples : Recording :=
  mkRecording "ic" Float.zero (- f70e_3)%float Float.zero [] [].

(** ** Facts on the comparison of floats *)

Module FloatFacts.

Ltac order_cases :=
  repeat match goal with
  | |- context [PosDef.Pos.compare_cont Eq ?a ?b] =>
      change (PosDef.Pos.compare_cont Eq a b) with (Pos.compare a b)
  | |- context [Z.compare ?a ?b] => destruct (Z.compare_spec a b)
  | |- context [Pos.compare ?a ?b] => destruct (Pos.compare_spec a b)
  end.

Ltac by_class :=
  simpl; try discriminate; try reflexivity;
  repeat match goal with s : bool |- _ => destruct s end;
  simpl; try discriminate; try reflexivity;
  order_cases; simpl.

Lemma lt_trans (x y z : float) :
  (x <? y)%float = true -> (y <? z)%float = true -> (x <? z)%float = true.
Proof.
  unfold Float.lt, SFltb.
  destruct x as [sx|sx| |sx mx ex], y as [sy|sy| |sy my ey],
           z as [sz|sz| |sz mz ez]; by_class;
    intros Hxy Hyz; try discriminate; try reflexivity;
    exfalso; subst; lia.
Qed.

Lemma le_not_gt (x y : float) :
  (x <=? y)%float = true -> (y <? x)%float = false.
Proof.
  unfold Float.le, Float.lt, SFleb, SFltb.
  destruct x as [sx|sx| |sx mx ex], y as [sy|sy| |sy my ey]; by_class;
    intros Hxy; try discriminate; try reflexivity;
    exfalso; subst; lia.
Qed.

(** The literals are binary64 numbers. *)
Lemma literals_binary64 :
  forallb Float.is_binary64
    [f800e_12; f85e_3; f45e_3; f5e_3; f200e_12; f1_5e_3; f40e_3;
     f15e_12; f8e_3; f60e_3; f84_999e_3] = true.
Proof. vm_compute. reflexivity. Qed.

(** Their bits, as [float.hex] prints them: 800e-12 is
    0x1.b7cdfd9d7bdbbp-31 and 85e-3 is 0x1.5c28f5c28f5c3p-4. *)
Lemma literal_bits :
  f800e_12 = S754_finite false 0x1b7cdfd9d7bdbb (-31 - 52)
  /\ f85e_3 = S754_finite false 0x15c28f5c28f5c3 (-4 - 52).
Proof. split; reflexivity. Qed.

(** The inhibitory range lies inside the excitatory one. *)
Lemma limits_nested : (- f85e_3 <? - f60e_3)%float = true.
Proof. vm_compute. reflexivity. Qed.

End FloatFacts.

(** ** recording_qc_pass *)

Section RecordingQC.

Variable rec : Recording.

(** The function passes a recording exactly when none of its guards
    fires. *)
Lemma recording_qc_pass_guards :
  recording_qc_pass rec =
    negb (current_out_of_range rec)
    && negb (mode_checks_fail rec)
    && negb (too_many_zeros rec).
Proof.
  unfold recording_qc_pass, current_out_of_range, mode_checks_fail,
    potential_out_of_range, too_many_zeros.
  destruct (_ || _)%bool; [reflexivity|]. cbn [when bind negb andb].
  destruct (String.eqb (clamp_mode rec) "ic").
  - destruct (_ || _)%bool; [reflexivity|]. cbn [when bind negb andb orb].
    destruct (_ >? _)%float; [reflexivity|]. cbn [when bind negb andb].
    destruct (_ >? _); reflexivity.
  - destruct (String.eqb (clamp_mode rec) "vc").
    + destruct (_ >? _)%float; [reflexivity|]. cbn [when bind negb andb].
      destruct (_ >? _); reflexivity.
    + cbn [when bind negb andb]. destruct (_ >? _); reflexivity.
Qed.

Lemma mode_checks_other :
  clamp_mode rec <> "ic" -> clamp_mode rec <> "vc" ->
  mode_checks_fail rec = false.
Proof.
  intros Hic Hvc. unfold mode_checks_fail.
  apply String.eqb_neq in Hic, Hvc. rewrite Hic, Hvc. reflexivity.
Qed.

End RecordingQC.

(** The limits of the baseline potential are accepted: the guard of
    line 28 rejects only what lies strictly beyond them. *)
Lemma recording_qc_pass_at_potential_limit :
  clamp_mode rec_at_potential_limit = "ic"
  /\ baseline_potential rec_at_potential_limit = (- f85e_3)%float
  /\ recording_qc_pass rec_at_potential_limit = true.
Proof. repeat split. Qed.

(** So are the limits of the baseline current (line 25). *)
Lemma recording_qc_pass_at_current_limit :
  baseline_current rec_at_current_limit = f800e_12
  /\ recording_qc_pass rec_at_current_limit = true.
Proof. split; reflexivity. Qed.

(** C1, amended.  [recording_qc_pass] returns false for every recording
    whose baseline current is strictly below -800e-12 or strictly above
    800e-12, and for every current-clamp recording whose baseline
    potential is strictly below -85e-3 or strictly above -45e-3.  The
    limit of the potential is accepted: a current-clamp recording with
    baseline potential exactly -85e-3, or -84.999e-3, and no other
    violation returns true. *)
Theorem recording_qc_pass_limits (rec : Recording) :
  ((baseline_current rec <? - f800e_12)%float = true
   \/ (baseline_current rec >? f800e_12)%float = true ->
   recording_qc_pass rec = false)
  /\ (clamp_mode rec = "ic" ->
      (baseline_potential rec <? - f85e_3)%float = true
      \/ (baseline_potential rec >? - f45e_3)%float = true ->
      recording_qc_pass rec = false)
  /\ (clamp_mode rec = "ic" ->
      baseline_potential rec = (- f85e_3)%float
      \/ baseline_potential rec = (- f84_999e_3)%float ->
      current_out_of_range rec = false ->
      (baseline_rms_noise rec >? f5e_3)%float = false ->
      too_many_zeros rec = false ->
      recording_qc_pass rec = true).
Proof.
  rewrite recording_qc_pass_guards. split; [|split].
  - intros Hcur. unfold current_out_of_range.
    destruct Hcur as [-> | ->]; rewrite ?orb_true_r; reflexivity.
  - intros Hic Hpot. apply String.eqb_eq in Hic.
    unfold mode_checks_fail, potential_out_of_range. rewrite Hic.
    destruct Hpot as [-> | ->]; rewrite ?orb_true_r; cbn [orb negb];
      apply andb_false_iff; left; apply andb_false_r.
  - intros Hic Hpot Hcur Hnoise Hzero. apply String.eqb_eq in Hic.
    unfold mode_checks_fail, potential_out_of_range.
    rewrite Hic, Hcur, Hnoise, Hzero.
    destruct Hpot as [-> | ->]; reflexivity.
Qed.

Lemma recording_qc_pass_limits_witness :
  recording_qc_pass rec_xyz_leaky = false
  /\ recording_qc_pass rec_hyperpolarised = false
  /\ recording_qc_pass rec_at_potential_limit = true
  /\ recording_qc_pass rec_near_potential_limit = true.
Proof.
  split; [|split; [|split]].
  - apply (proj1 (recording_qc_pass_limits rec_xyz_leaky)).
    right. reflexivity.
  - apply (proj1 (proj2 (recording_qc_pass_limits rec_hyperpolarised))).
    + reflexivity.
    + left. reflexivity.
  - apply (proj2 (proj2 (recording_qc_pass_limits rec_at_potential_limit)));
      try reflexivity.
    left. reflexivity.
  - apply (proj2 (proj2 (recording_qc_pass_limits rec_near_potential_limit)));
      try reflexivity.
    right. reflexivity.
Defined.

(** C6.  [recording_qc_pass] returns false when the count of exact-zero
    samples of the primary channel is strictly greater than its length
    floor-divided by 10.  With 100 samples, 10 zeros pass the check (the
    verdict is then that of the other guards) and 11 zeros fail it. *)
Theorem zero_fraction_check (rec : Recording) :
  (count_zero (primary rec) > len (primary rec) / 10 ->
   recording_qc_pass rec = false)
  /\ (recording_qc_pass rec = true ->
      count_zero (primary rec) <= len (primary rec) / 10)
  /\ (len (primary rec) = 100 -> count_zero (primary rec) = 10 ->
      recording_qc_pass rec =
        negb (current_out_of_range rec) && negb (mode_checks_fail rec))
  /\ (len (primary rec) = 100 -> count_zero (primary rec) = 11 ->
      recording_qc_pass rec = false).
Proof.
  rewrite recording_qc_pass_guards. unfold too_many_zeros.
  split; [|split; [|split]].
  - intros Hgt. apply Z.gtb_gt in Hgt. rewrite Hgt. apply andb_false_r.
  - intros Hpass. apply andb_true_iff in Hpass. destruct Hpass as [_ Hz].
    apply negb_true_iff in Hz. rewrite Z.gtb_ltb in Hz.
    apply Z.ltb_ge in Hz. exact Hz.
  - intros -> ->. apply andb_true_r.
  - intros -> ->. apply andb_false_r.
Qed.

Lemma zero_fraction_check_witness :
  recording_qc_pass (rec_zeros 11 100) = false
  /\ recording_qc_pass (rec_zeros 10 100) = true
  /\ recording_qc_pass (rec_zeros 30 200) = false.
Proof.
  split; [|split].
  - apply (proj2 (proj2 (proj2 (zero_fraction_check (rec_zeros 11 100)))));
      vm_compute; reflexivity.
  - rewrite (proj1 (proj2 (proj2 (zero_fraction_check (rec_zeros 10 100)))));
      vm_compute; reflexivity.
  - apply (proj1 (zero_fraction_check (rec_zeros 30 200))).
    vm_compute. reflexivity.
Defined.

(** ** pulse_response_qc_pass *)

Lemma eq_int_0_false (n_spikes : option Z) :
  eq_int n_spikes 0 = false <-> n_spikes <> Some 0.
Proof.
  destruct n_spikes as [m|]; simpl.
  - rewrite Z.eqb_neq. split; congruence.
  - split; [discriminate | reflexivity].
Qed.

Lemma check_holding_potential_ranges (base base2 : float) :
  check_holding_potential base base2 =
    (((- f85e_3 <? base) && (base <? - f45e_3)
      && ((- f85e_3 <? base2) && (base2 <? - f45e_3)))%float,
     ((- f60e_3 <? base) && (base <? - f45e_3)
      && ((- f60e_3 <? base2) && (base2 <? - f45e_3)))%float).
Proof. reflexivity. Qed.

Lemma inside_true (bmin bmax x y : float) :
  ((bmin <? x) && (x <? bmax) && ((bmin <? y) && (y <? bmax)))%float = true
  <-> inside bmin bmax x /\ inside bmin bmax y.
Proof. unfold inside. rewrite !andb_true_iff. tauto. Qed.

Lemma pulse_too_close_true (adjacent_pulses : list float) :
  pulse_too_close adjacent_pulses = true <->
  exists t, In t adjacent_pulses /\ (Float.abs t <? f8e_3)%float = true.
Proof.
  unfold pulse_too_close, any. rewrite existsb_exists. split.
  - intros (b & Hin & Hb). apply in_map_iff in Hin.
    destruct Hin as (t & Ht & Hin). exists t. split; congruence.
  - intros (t & Hin & Ht). exists true. split; [|reflexivity].
    apply in_map_iff. exists t. split; assumption.
Qed.

Lemma pulse_too_close_false (adjacent_pulses : list float) :
  (forall t, In t adjacent_pulses -> (f8e_3 <=? Float.abs t)%float = true) ->
  pulse_too_close adjacent_pulses = false.
Proof.
  intros Hfar. destruct (pulse_too_close adjacent_pulses) eqn:Hclose;
    [|reflexivity].
  apply pulse_too_close_true in Hclose. destruct Hclose as (t & Hin & Ht).
  apply Hfar, FloatFacts.le_not_gt in Hin. congruence.
Qed.

Section PulseResponseQC.

Variable median : list float -> float.
Variable std : list float -> float.

Variable post_rec : Recording.
Variable window : Z * Z.
Variable n_spikes : option Z.
Variable adjacent_pulses : list float.

(** The five steps, one after the other. *)
Lemma pulse_response_qc_pass_steps :
  pulse_response_qc_pass median std post_rec window n_spikes adjacent_pulses =
    if negb (recording_qc_pass post_rec) then Ok (false, false)
    else if eq_int n_spikes 0 then Ok (false, false)
    else match check_response_noise median std post_rec window with
         | Next base =>
             if pulse_too_close adjacent_pulses then Ok (false, false)
             else Ok (check_holding_potential base
                        (baseline_potential post_rec))
         | Return r => Ok r
         | Raise e => Error e
         end.
Proof.
  unfold pulse_response_qc_pass, is_False, pulse_too_close.
  destruct (negb _); [reflexivity|].
  destruct (eq_int _ _); [reflexivity|]. cbn [when bind].
  destruct (check_response_noise _ _ _ _); cbn [bind call];
    [|reflexivity|reflexivity].
  destruct (any _); reflexivity.
Qed.

(** The noise check only ever returns the failing pair. *)
Lemma check_response_noise_return (r : bool * bool) :
  check_response_noise median std post_rec window = Return r ->
  r = (false, false).
Proof.
  unfold check_response_noise.
  destruct (String.eqb _ "ic").
  - destruct (_ >? _)%float; cbn [when bind]; [congruence|].
    destruct (window_of _ _); cbn [ndarray_max bind]; [discriminate|].
    destruct (_ >? _)%float; cbn [when bind]; [congruence|discriminate].
  - destruct (String.eqb _ "vc"); [|discriminate].
    destruct (_ >? _)%float; cbn [when bind]; [congruence|discriminate].
Qed.

(** The noise check raises only for a clamp mode it does not know, or
    when numpy refuses the maximum of an empty window. *)
Lemma check_response_noise_raise (e : exn) :
  check_response_noise median std post_rec window = Raise e ->
  (e = TypeError ("Unsupported clamp mode " ++ clamp_mode post_rec)
   /\ clamp_mode post_rec <> "ic" /\ clamp_mode post_rec <> "vc")
  \/ (exists msg, e = ValueError msg).
Proof.
  unfold check_response_noise.
  destruct (String.eqb _ "ic") eqn:Hic.
  - destruct (_ >? _)%float; cbn [when bind]; [discriminate|].
    destruct (window_of _ _); cbn [ndarray_max bind].
    + intros [= <-]. right. eexists. reflexivity.
    + destruct (_ >? _)%float; cbn [when bind]; discriminate.
  - destruct (String.eqb _ "vc") eqn:Hvc.
    + destruct (_ >? _)%float; cbn [when bind]; discriminate.
    + intros [= <-]. left. apply String.eqb_neq in Hic, Hvc. tauto.
Qed.

Lemma overlap_inside_both (x : float) :
  inside (- f60e_3) (- f45e_3) x -> inside (- f85e_3) (- f45e_3) x.
Proof.
  intros [Hlo Hhi]. split; [|exact Hhi].
  exact (FloatFacts.lt_trans _ _ _ FloatFacts.limits_nested Hlo).
Qed.

(** C2.  When [recording_qc_pass] is false, the call returns the pair
    (false, false) whatever the window, the spike count, the adjacent
    pulses and the clamp mode are, and nothing is raised. *)
Theorem failed_recording_fails_both :
  recording_qc_pass post_rec = false ->
  pulse_response_qc_pass median std post_rec window n_spikes adjacent_pulses
  = Ok (false, false).
Proof.
  intros Hrec. rewrite pulse_response_qc_pass_steps, Hrec. reflexivity.
Qed.

(** C3.  The call raises the unsupported-clamp-mode error, a
    [TypeError] whose message carries the mode, exactly when steps 1 and
    2 pass and the clamp mode is neither "ic" nor "vc"; no other
    [TypeError] is raised.  [recording_qc_pass] is a total boolean
    function: on such a mode it skips the mode-specific checks and
    still applies the baseline-current and zero-fraction checks. *)
Theorem unsupported_clamp_mode :
  (pulse_response_qc_pass median std post_rec window n_spikes adjacent_pulses
   = Error (TypeError ("Unsupported clamp mode " ++ clamp_mode post_rec))
   <-> recording_qc_pass post_rec = true
       /\ n_spikes <> Some 0
       /\ clamp_mode post_rec <> "ic"
       /\ clamp_mode post_rec <> "vc")
  /\ (forall msg,
      pulse_response_qc_pass median std post_rec window n_spikes
        adjacent_pulses = Error (TypeError msg) ->
      msg = "Unsupported clamp mode " ++ clamp_mode post_rec)
  /\ (clamp_mode post_rec <> "ic" -> clamp_mode post_rec <> "vc" ->
      recording_qc_pass post_rec =
        negb (current_out_of_range post_rec)
        && negb (too_many_zeros post_rec)).
Proof.
  assert (Hraise : forall msg,
    pulse_response_qc_pass median std post_rec window n_spikes
      adjacent_pulses = Error (TypeError msg) ->
    msg = "Unsupported clamp mode " ++ clamp_mode post_rec
    /\ recording_qc_pass post_rec = true /\ n_spikes <> Some 0
    /\ clamp_mode post_rec <> "ic" /\ clamp_mode post_rec <> "vc").
  { intros msg. rewrite pulse_response_qc_pass_steps.
    destruct (recording_qc_pass post_rec); [|discriminate]. cbn [negb].
    destruct (eq_int n_spikes 0) eqn:Hn; [discriminate|].
    apply eq_int_0_false in Hn.
    destruct (check_response_noise median std post_rec window)
      as [base|r|e] eqn:Hnoise.
    - destruct (pulse_too_close _); discriminate.
    - discriminate.
    - intros [= ->]. apply check_response_noise_raise in Hnoise.
      destruct Hnoise as [([= ->] & Hic & Hvc) | (m & [=])]. tauto. }
  split; [split|split].
  - intros Herr. apply Hraise in Herr. tauto.
  - intros (Hrec & Hn & Hic & Hvc). rewrite pulse_response_qc_pass_steps.
    apply eq_int_0_false in Hn. rewrite Hrec, Hn. cbn [negb].
    unfold check_response_noise. apply String.eqb_neq in Hic, Hvc.
    rewrite Hic, Hvc. reflexivity.
  - intros msg Herr. apply Hraise in Herr. tauto.
  - intros Hic Hvc. rewrite recording_qc_pass_guards.
    rewrite (mode_checks_other _ Hic Hvc). cbn [negb].
    rewrite andb_true_r. reflexivity.
Qed.

(** C4.  In voltage clamp the noise check fails with (false, false)
    exactly when the standard deviation of the primary channel over
    the window exceeds 15e-12, and otherwise hands on as [base] the
    median of the command channel over the window, which is the value
    the polarity ranges are then applied to. *)
Theorem voltage_clamp_base_is_command_median :
  clamp_mode post_rec = "vc" ->
  check_response_noise median std post_rec window =
    (if (std (window_of (primary post_rec) window) >? f15e_12)%float
     then Return (false, false)
     else Next (median (window_of (command post_rec) window)))
  /\ (recording_qc_pass post_rec = true -> n_spikes <> Some 0 ->
      pulse_response_qc_pass median std post_rec window n_spikes
        adjacent_pulses =
        if (std (window_of (primary post_rec) window) >? f15e_12)%float
        then Ok (false, false)
        else if pulse_too_close adjacent_pulses then Ok (false, false)
        else Ok (check_holding_potential
                   (median (window_of (command post_rec) window))
                   (baseline_potential post_rec))).
Proof.
  intros Hvc.
  assert (Hnoise : check_response_noise median std post_rec window =
    (if (std (window_of (primary post_rec) window) >? f15e_12)%float
     then Return (false, false)
     else Next (median (window_of (command post_rec) window)))).
  { unfold check_response_noise. rewrite Hvc.
    change (String.eqb "vc" "ic") with false.
    change (String.eqb "vc" "vc") with true. cbn iota.
    destruct (_ >? _)%float; reflexivity. }
  split; [exact Hnoise|].
  intros Hrec Hn. apply eq_int_0_false in Hn.
  rewrite pulse_response_qc_pass_steps, Hrec, Hn, Hnoise. cbn [negb].
  destruct (_ >? _)%float; reflexivity.
Qed.

(** C5.  When the polarity step is reached with [base], the excitatory
    verdict is true exactly when [base] and the baseline potential of
    the recording both lie strictly inside (-85e-3, -45e-3), and the
    inhibitory verdict exactly when both lie strictly inside
    (-60e-3, -45e-3); both are true when both values lie in the second
    range. *)
Theorem polarity_ranges (base : float) :
  recording_qc_pass post_rec = true -> n_spikes <> Some 0 ->
  check_response_noise median std post_rec window = Next base ->
  pulse_too_close adjacent_pulses = false ->
  exists ex_qc_pass in_qc_pass : bool,
    pulse_response_qc_pass median std post_rec window n_spikes
      adjacent_pulses = Ok (ex_qc_pass, in_qc_pass)
    /\ (ex_qc_pass = true <->
        inside (- f85e_3) (- f45e_3) base
        /\ inside (- f85e_3) (- f45e_3) (baseline_potential post_rec))
    /\ (in_qc_pass = true <->
        inside (- f60e_3) (- f45e_3) base
        /\ inside (- f60e_3) (- f45e_3) (baseline_potential post_rec))
    /\ (inside (- f60e_3) (- f45e_3) base ->
        inside (- f60e_3) (- f45e_3) (baseline_potential post_rec) ->
        ex_qc_pass = true /\ in_qc_pass = true).
Proof.
  intros Hrec Hn Hnoise Hfar. apply eq_int_0_false in Hn.
  rewrite pulse_response_qc_pass_steps, Hrec, Hn, Hnoise, Hfar.
  rewrite check_holding_potential_ranges. cbn [negb].
  eexists. eexists. split; [reflexivity|].
  rewrite !inside_true. split; [tauto|]. split; [tauto|].
  intros Hbase Hbase2. split; [|tauto].
  split; apply overlap_inside_both; assumption.
Qed.

(** C7.  In current clamp, once steps 1 and 2 have passed, the call
    returns (false, false) if the standard deviation of the primary
    channel over the window exceeds 1.5e-3, or if its maximum over the
    window exceeds -40e-3. *)
Theorem current_clamp_noise_and_ceiling :
  clamp_mode post_rec = "ic" ->
  recording_qc_pass post_rec = true -> n_spikes <> Some 0 ->
  (std (window_of (primary post_rec) window) >? f1_5e_3)%float = true
  \/ (exists top : float,
        @ndarray_max (bool * bool) (window_of (primary post_rec) window)
        = Next top
        /\ (top >? - f40e_3)%float = true) ->
  pulse_response_qc_pass median std post_rec window n_spikes adjacent_pulses
  = Ok (false, false).
Proof.
  intros Hic Hrec Hn Hbad. apply eq_int_0_false in Hn.
  rewrite pulse_response_qc_pass_steps, Hrec, Hn. cbn [negb].
  unfold check_response_noise. rewrite Hic.
  change (String.eqb "ic" "ic") with true. cbn iota.
  destruct (_ >? _)%float eqn:Hstd; cbn [when bind]; [reflexivity|].
  destruct Hbad as [Hbad | (top & Hmax & Htop)]; [discriminate|].
  rewrite Hmax. cbn [bind]. rewrite Htop. reflexivity.
Qed.

(** C8.  Once the recording passes, a spike count of exactly 0 gives
    (false, false); with no spike count ([None]) the spike check is
    skipped and the call is the evaluation of steps 3 to 5. *)
Theorem spike_count_check :
  recording_qc_pass post_rec = true ->
  pulse_response_qc_pass median std post_rec window (Some 0) adjacent_pulses
  = Ok (false, false)
  /\ pulse_response_qc_pass median std post_rec window None adjacent_pulses
     = call (base <- check_response_noise median std post_rec window ;;
             when (pulse_too_close adjacent_pulses)
               (Return (false, false)) ;;
             Return (check_holding_potential base
                       (baseline_potential post_rec))).
Proof.
  intros Hrec. unfold pulse_response_qc_pass, is_False. rewrite Hrec.
  split; reflexivity.
Qed.

(** C9.  When steps 1 to 3 complete with [base]: an adjacent pulse of
    absolute value below 8e-3 gives (false, false); when every adjacent
    pulse has absolute value at least 8e-3 (in particular when there is
    none) the call returns what the polarity ranges give. *)
Theorem adjacent_pulse_check (base : float) :
  recording_qc_pass post_rec = true -> n_spikes <> Some 0 ->
  check_response_noise median std post_rec window = Next base ->
  ((exists t, In t adjacent_pulses
              /\ (Float.abs t <? f8e_3)%float = true) ->
   pulse_response_qc_pass median std post_rec window n_spikes
     adjacent_pulses = Ok (false, false))
  /\ ((forall t, In t adjacent_pulses ->
                 (Float.abs t >=? f8e_3)%float = true) ->
      pulse_response_qc_pass median std post_rec window n_spikes
        adjacent_pulses =
        Ok (check_holding_potential base (baseline_potential post_rec))).
Proof.
  intros Hrec Hn Hnoise. apply eq_int_0_false in Hn.
  rewrite pulse_response_qc_pass_steps, Hrec, Hn, Hnoise. cbn [negb].
  split.
  - intros Hclose. apply pulse_too_close_true in Hclose.
    rewrite Hclose. reflexivity.
  - intros Hfar. rewrite (pulse_too_close_false _ Hfar). reflexivity.
Qed.

(** C10.  Whenever the call returns a pair whose inhibitory component is
    true, its excitatory component is true as well. *)
Theorem inhibitory_implies_excitatory (ex_qc_pass in_qc_pass : bool) :
  pulse_response_qc_pass median std post_rec window n_spikes adjacent_pulses
  = Ok (ex_qc_pass, in_qc_pass) ->
  in_qc_pass = true -> ex_qc_pass = true.
Proof.
  rewrite pulse_response_qc_pass_steps.
  destruct (negb _); [intros [= <- <-]; discriminate|].
  destruct (eq_int _ _); [intros [= <- <-]; discriminate|].
  destruct (check_response_noise median std post_rec window)
    as [base|r|e] eqn:Hnoise.
  - destruct (pulse_too_close _); [intros [= <- <-]; discriminate|].
    rewrite check_holding_potential_ranges. intros [= <- <-] Hin.
    apply inside_true in Hin. apply inside_true.
    destruct Hin as [Hbase Hbase2].
    split; apply overlap_inside_both; assumption.
  - apply check_response_noise_return in Hnoise. subst r.
    intros [= <- <-]; discriminate.
  - discriminate.
Qed.

End PulseResponseQC.

(** ** The theorems at concrete recordings *)

Lemma failed_recording_fails_both_witness :
  recording_qc_pass rec_xyz_leaky = false
  /\ pulse_response_qc_pass np_median np_std rec_xyz_leaky (0, 1) (Some 1)
       [f1e_3] = Ok (false, false).
Proof.
  split; [reflexivity|].
  apply failed_recording_fails_both. reflexivity.
Defined.

Lemma unsupported_clamp_mode_witness :
  pulse_response_qc_pass np_median np_std rec_xyz (0, 1) None [] =
    Error (TypeError "Unsupported clamp mode xyz")
  /\ recording_qc_pass rec_xyz = true.
Proof.
  destruct (unsupported_clamp_mode np_median np_std rec_xyz (0, 1) None [])
    as (Hraise & _ & Hrec).
  split.
  - apply Hraise. split; [reflexivity|]. repeat split; discriminate.
  - rewrite Hrec; [reflexivity | discriminate | discriminate].
Defined.

(** The medians of the two channels differ, and the call follows the
    command channel's. *)
Lemma voltage_clamp_base_is_command_median_witness :
  np_median (window_of (primary rec_vc) (5, 15)) = f15e_12
  /\ np_median (window_of (command rec_vc) (5, 15)) = (- f50e_3)%float
  /\ check_holding_potential f15e_12 (baseline_potential rec_vc)
     = (false, false)
  /\ pulse_response_qc_pass np_median np_std rec_vc (5, 15) (Some 1) []
     = Ok (true, true)
  /\ pulse_response_qc_pass np_median np_std rec_vc_noisy (5, 15) (Some 1) []
     = Ok (false, false).
Proof.
  split; [vm_compute; reflexivity|].
  split; [vm_compute; reflexivity|].
  split; [vm_compute; reflexivity|].
  split.
  - rewrite (proj2 (voltage_clamp_base_is_command_median np_median np_std
                      rec_vc (5, 15) (Some 1) [] eq_refl));
      [vm_compute; reflexivity | reflexivity | discriminate].
  - rewrite (proj2 (voltage_clamp_base_is_command_median np_median np_std
                      rec_vc_noisy (5, 15) (Some 1) [] eq_refl));
      [vm_compute; reflexivity | reflexivity | discriminate].
Defined.

Lemma polarity_ranges_witness :
  exists ex_qc_pass in_qc_pass : bool,
    pulse_response_qc_pass np_median np_std rec_ic_overlap (5, 15) (Some 1)
      [] = Ok (ex_qc_pass, in_qc_pass)
    /\ ex_qc_pass = true /\ in_qc_pass = true.
Proof.
  destruct (polarity_ranges np_median np_std rec_ic_overlap (5, 15) (Some 1)
              [] (- f50e_3)%float)
    as (ex_qc_pass & in_qc_pass & Hverdict & _ & _ & Hboth).
  - reflexivity.
  - discriminate.
  - vm_compute. reflexivity.
  - reflexivity.
  - exists ex_qc_pass, in_qc_pass. split; [exact Hverdict|].
    apply Hboth; split; vm_compute; reflexivity.
Defined.

Lemma current_clamp_noise_and_ceiling_witness :
  pulse_response_qc_pass np_median np_std rec_ic_noisy (5, 15) (Some 1) []
    = Ok (false, false)
  /\ pulse_response_qc_pass np_median np_std rec_ic_depolarised (5, 15)
       (Some 1) [] = Ok (false, false).
Proof.
  split.
  - apply current_clamp_noise_and_ceiling;
      [reflexivity | reflexivity | discriminate |].
    left. vm_compute. reflexivity.
  - apply current_clamp_noise_and_ceiling;
      [reflexivity | reflexivity | discriminate |].
    right. exists (- f30e_3)%float. split; vm_compute; reflexivity.
Defined.

Lemma spike_count_check_witness :
  pulse_response_qc_pass np_median np_std rec_ic (5, 15) (Some 0) []
    = Ok (false, false)
  /\ pulse_response_qc_pass np_median np_std rec_ic (5, 15) None []
     = Ok (true, false).
Proof.
  destruct (spike_count_check np_median np_std rec_ic (5, 15) [] eq_refl)
    as [Hzero Hnone].
  split; [exact Hzero|].
  rewrite Hnone. vm_compute. reflexivity.
Defined.

Lemma adjacent_pulse_check_witness :
  pulse_response_qc_pass np_median np_std rec_ic (5, 15) (Some 1) [f5e_3]
    = Ok (false, false)
  /\ pulse_response_qc_pass np_median np_std rec_ic (5, 15) (Some 1)
       [f8e_3; (- f9e_3)%float] = Ok (true, false)
  /\ pulse_response_qc_pass np_median np_std rec_ic (5, 15) (Some 1) []
     = Ok (true, false).
Proof.
  assert (Hnoise : check_response_noise np_median np_std rec_ic (5, 15)
                   = Next (- f70e_3)%float) by (vm_compute; reflexivity).
  assert (Hn : Some 1 <> Some 0) by discriminate.
  split; [|split].
  - apply (proj1 (adjacent_pulse_check np_median np_std rec_ic (5, 15)
                    (Some 1) [f5e_3] _ eq_refl Hn Hnoise)).
    exists f5e_3. split; [left; reflexivity | reflexivity].
  - rewrite (proj2 (adjacent_pulse_check np_median np_std rec_ic (5, 15)
                      (Some 1) [f8e_3; (- f9e_3)%float] _ eq_refl Hn Hnoise)).
    + reflexivity.
    + intros t [<- | [<- | []]]; reflexivity.
  - rewrite (proj2 (adjacent_pulse_check np_median np_std rec_ic (5, 15)
                      (Some 1) [] _ eq_refl Hn Hnoise)).
    + reflexivity.
    + intros t [].
Defined.

Lemma inhibitory_implies_excitatory_witness :
  pulse_response_qc_pass np_median np_std rec_ic_overlap (5, 15) (Some 1) []
    = Ok (true, true)
  /\ true = true.
Proof.
  assert (Hverdict : pulse_response_qc_pass np_median np_std rec_ic_overlap
                       (5, 15) (Some 1) [] = Ok (true, true))
    by (vm_compute; reflexivity).
  split; [exact Hverdict|].
  exact (inhibitory_implies_excitatory np_median np_std rec_ic_overlap
           (5, 15) (Some 1) [] true true Hverdict eq_refl).
Defined.

(** ** Further properties of recording_qc_pass *)

Lemma len_cons {A : Type} (x : A) (l : list A) : len (x :: l) = 1 + len l.
Proof. unfold len. cbn [List.length]. lia. Qed.

Lemma len_nonneg {A : Type} (l : list A) : 0 <= len l.
Proof. unfold len. lia. Qed.

Lemma count_zero_bounds (data : list float) :
  0 <= count_zero data <= len data.
Proof.
  induction data as [|x rest IH]; [cbn; lia|].
  rewrite len_cons. cbn [count_zero].
  destruct (x =? Float.zero)%float; lia.
Qed.

Lemma count_zero_all (data : list float) :
  (forall x, In x data -> (x =? Float.zero)%float = true) ->
  count_zero data = len data.
Proof.
  induction data as [|x rest IH]; intros Hall; [reflexivity|].
  rewrite len_cons. cbn [count_zero].
  rewrite (Hall x (or_introl eq_refl)), IH; [reflexivity|].
  intros y Hy. apply Hall. right. exact Hy.
Qed.

Lemma count_zero_none (data : list float) :
  (forall x, In x data -> (x =? Float.zero)%float = false) ->
  count_zero data = 0.
Proof.
  induction data as [|x rest IH]; intros Hnone; [reflexivity|].
  cbn [count_zero].
  rewrite (Hnone x (or_introl eq_refl)), IH; [reflexivity|].
  intros y Hy. apply Hnone. right. exact Hy.
Qed.

Lemma count_zero_some (data : list float) (x : float) :
  In x data -> (x =? Float.zero)%float = true -> 0 < count_zero data.
Proof.
  induction data as [|y rest IH]; intros Hin Hx; [destruct Hin|].
  cbn [count_zero]. pose proof (count_zero_bounds rest) as Hb.
  destruct Hin as [-> | Hin].
  - rewrite Hx. lia.
  - specialize (IH Hin Hx). destruct (y =? Float.zero)%float; lia.
Qed.

(** X1.  The limit on the baseline RMS noise depends on the clamp mode:
    a current-clamp recording is rejected when it exceeds 5e-3, a
    voltage-clamp recording when it exceeds 200e-12. *)
Theorem rms_noise_limits (rec : Recording) :
  (clamp_mode rec = "ic" ->
   (baseline_rms_noise rec >? f5e_3)%float = true ->
   recording_qc_pass rec = false)
  /\ (clamp_mode rec = "vc" ->
      (baseline_rms_noise rec >? f200e_12)%float = true ->
      recording_qc_pass rec = false).
Proof.
  rewrite recording_qc_pass_guards. unfold mode_checks_fail. split.
  - intros Hic Hnoise. apply String.eqb_eq in Hic.
    rewrite Hic, Hnoise, orb_true_r. cbn [negb].
    rewrite andb_false_r. reflexivity.
  - intros Hvc Hnoise. rewrite Hvc.
    change (String.eqb "vc" "ic") with false.
    change (String.eqb "vc" "vc") with true. cbn iota.
    rewrite Hnoise. cbn [negb]. rewrite andb_false_r. reflexivity.
Qed.

Lemma rms_noise_limits_witness :
  recording_qc_pass rec_ic_loud = false
  /\ recording_qc_pass rec_vc_loud = false.
Proof.
  split.
  - apply (proj1 (rms_noise_limits rec_ic_loud)); reflexivity.
  - apply (proj2 (rms_noise_limits rec_vc_loud)); reflexivity.
Defined.

(** X2.  In voltage clamp [recording_qc_pass] does not look at the
    baseline potential: changing it leaves the result as it is. *)
Theorem voltage_clamp_ignores_potential (rec : Recording) (v : float) :
  clamp_mode rec = "vc" ->
  recording_qc_pass (with_baseline_potential rec v) = recording_qc_pass rec.
Proof.
  intros Hvc. rewrite !recording_qc_pass_guards.
  unfold mode_checks_fail, with_baseline_potential. cbn [clamp_mode].
  rewrite Hvc. reflexivity.
Qed.

Lemma voltage_clamp_ignores_potential_witness :
  recording_qc_pass (with_baseline_potential rec_vc Float.nan)
  = recording_qc_pass rec_vc.
Proof.
  apply voltage_clamp_ignores_potential. reflexivity.
Defined.

(** X3.  A baseline attribute that is NaN is never out of range: when
    baseline current, potential and RMS noise are all NaN, the recording
    is rejected only by the zero-fraction check, whatever the clamp
    mode. *)
Theorem nan_baselines_not_rejected (rec : Recording) :
  baseline_current rec = Float.nan ->
  baseline_potential rec = Float.nan ->
  baseline_rms_noise rec = Float.nan ->
  recording_qc_pass rec = negb (too_many_zeros rec).
Proof.
  intros Hcur Hpot Hnoise. rewrite recording_qc_pass_guards.
  unfold current_out_of_range, mode_checks_fail, potential_out_of_range.
  rewrite Hcur, Hpot, Hnoise.
  destruct (String.eqb _ "ic"); [reflexivity|].
  destruct (String.eqb _ "vc"); reflexivity.
Qed.

Lemma nan_baselines_not_rejected_witness :
  recording_qc_pass rec_nan = true.
Proof.
  rewrite (nan_baselines_not_rejected rec_nan eq_refl eq_refl eq_refl).
  reflexivity.
Defined.

(** X4.  A sweep made of exact zeros only, of any non-zero length, is
    rejected; both 0.0 and -0.0 count as zero. *)
Theorem all_zero_sweep_rejected (rec : Recording) :
  primary rec <> [] ->
  (forall x, In x (primary rec) -> (x =? Float.zero)%float = true) ->
  recording_qc_pass rec = false.
Proof.
  intros Hne Hall. rewrite recording_qc_pass_guards. unfold too_many_zeros.
  rewrite (count_zero_all _ Hall).
  assert (Hlen : 0 < len (primary rec)).
  { destruct (primary rec); [congruence|]. rewrite len_cons.
    pose proof (len_nonneg l). lia. }
  assert (Hdiv : len (primary rec) / 10 < len (primary rec))
    by (apply Z.div_lt; lia).
  apply Z.gt_lt_iff, Z.gtb_gt in Hdiv. rewrite Hdiv.
  apply andb_false_r.
Qed.

Lemma all_zero_sweep_rejected_witness :
  recording_qc_pass rec_silent = false
  /\ recording_qc_pass
       (mkRecording "xyz" Float.zero Float.zero Float.zero
          [S754_zero true] []) = false.
Proof.
  split.
  - apply all_zero_sweep_rejected; [discriminate|].
    intros x Hin. apply repeat_spec in Hin. subst x. reflexivity.
  - apply all_zero_sweep_rejected; [discriminate|].
    intros x [<- | []]. reflexivity.
Defined.

(** X5.  The threshold is a floor division, so a sweep of fewer than 10
    samples is rejected as soon as one sample is an exact zero; a sweep
    with no exact zero, the empty one included, always passes the
    zero-fraction check. *)
Theorem short_sweep_zero_check (rec : Recording) :
  (len (primary rec) < 10 ->
   (exists x, In x (primary rec) /\ (x =? Float.zero)%float = true) ->
   recording_qc_pass rec = false)
  /\ ((forall x, In x (primary rec) -> (x =? Float.zero)%float = false) ->
      recording_qc_pass rec =
        negb (current_out_of_range rec) && negb (mode_checks_fail rec)).
Proof.
  rewrite recording_qc_pass_guards. unfold too_many_zeros. split.
  - intros Hshort (x & Hin & Hx).
    pose proof (count_zero_some _ _ Hin Hx) as Hpos.
    pose proof (len_nonneg (primary rec)) as Hlen.
    rewrite (Z.div_small (len (primary rec)) 10) by lia.
    apply Z.gt_lt_iff, Z.gtb_gt in Hpos. rewrite Hpos.
    apply andb_false_r.
  - intros Hnone. rewrite (count_zero_none _ Hnone).
    pose proof (len_nonneg (primary rec)) as Hlen.
    assert (Hdiv : 0 <= len (primary rec) / 10)
      by (apply Z.div_pos; lia).
    destruct (0 >? len (primary rec) / 10) eqn:Hgt.
    + apply Z.gtb_gt in Hgt. lia.
    + apply andb_true_r.
Qed.

Lemma short_sweep_zero_check_witness :
  recording_qc_pass rec_short = false
  /\ recording_qc_pass rec_no_samples = true.
Proof.
  split.
  - apply (proj1 (short_sweep_zero_check rec_short)).
    + vm_compute. reflexivity.
    + exists (S754_zero true). split; [|reflexivity].
      apply in_or_app. right. left. reflexivity.
  - rewrite (proj2 (short_sweep_zero_check rec_no_samples)).
    + reflexivity.
    + intros x [].
Defined.

(** ** Further properties of pulse_response_qc_pass *)

Lemma abs_neg (t : float) : Float.abs (- t)%float = Float.abs t.
Proof. destruct t; reflexivity. Qed.

Lemma pulse_too_close_cons (t : float) (adjacent_pulses : list float) :
  pulse_too_close (t :: adjacent_pulses) =
    (Float.abs t <? f8e_3)%float || pulse_too_close adjacent_pulses.
Proof. reflexivity. Qed.

Lemma pulse_too_close_app (a b : list float) :
  pulse_too_close (a ++ b) = pulse_too_close a || pulse_too_close b.
Proof.
  unfold pulse_too_close, any. rewrite map_app, existsb_app. reflexivity.
Qed.

Lemma pulse_too_close_neg (adjacent_pulses : list float) :
  pulse_too_close (map Float.neg adjacent_pulses)
  = pulse_too_close adjacent_pulses.
Proof.
  induction adjacent_pulses as [|t rest IH]; [reflexivity|].
  cbn [map]. rewrite !pulse_too_close_cons, IH, abs_neg. reflexivity.
Qed.

Lemma pulse_too_close_perm (a b : list float) :
  Permutation a b -> pulse_too_close a = pulse_too_close b.
Proof.
  induction 1 as [|t a b Hperm IH|s t a|a b c Hab IHab Hbc IHbc].
  - reflexivity.
  - rewrite !pulse_too_close_cons, IH. reflexivity.
  - rewrite !pulse_too_close_cons.
    destruct (Float.abs s <? f8e_3)%float, (Float.abs t <? f8e_3)%float;
      reflexivity.
  - congruence.
Qed.

(** A window inside the channel holds [stop - start] samples. *)
Lemma window_length (channel : list float) (window : Z * Z) :
  0 <= fst window <= snd window -> snd window <= len channel ->
  len (window_of channel window) = snd window - fst window.
Proof.
  destruct window as [start stop]. cbn [fst snd]. intros Horder Hstop.
  unfold window_of, slice, slice_bound. cbn [fst snd].
  destruct (start <? 0) eqn:Hs; [apply Z.ltb_lt in Hs; lia|].
  destruct (stop <? 0) eqn:Ht; [apply Z.ltb_lt in Ht; lia|].
  unfold len in *. rewrite length_firstn, length_skipn. lia.
Qed.

Lemma window_nonempty (channel : list float) (window : Z * Z) :
  0 <= fst window < snd window -> snd window <= len channel ->
  window_of channel window <> [].
Proof.
  intros Horder Hstop Hempty.
  pose proof (window_length channel window) as Hlen.
  rewrite Hempty in Hlen. cbn in Hlen. lia.
Qed.

(** A baseline potential outside the excitatory range fails both
    polarities. *)
Lemma outside_fails_both (base base2 : float) :
  ~ inside (- f85e_3) (- f45e_3) base2 ->
  check_holding_potential base base2 = (false, false).
Proof.
  intros Hout. rewrite check_holding_potential_ranges.
  destruct (- f85e_3 <? base2)%float eqn:Hlo85;
    destruct (base2 <? - f45e_3)%float eqn:Hhi;
    try (exfalso; apply Hout; split; assumption);
    rewrite ?andb_false_r; cbn [andb];
    try reflexivity.
  destruct (- f60e_3 <? base2)%float eqn:Hlo60;
    rewrite ?andb_false_r; [|reflexivity].
  pose proof (FloatFacts.lt_trans _ _ _ FloatFacts.limits_nested Hlo60).
  congruence.
Qed.

Section PulseResponseMore.

Variable median : list float -> float.
Variable std : list float -> float.

Variable post_rec : Recording.
Variable window : Z * Z.
Variable n_spikes : option Z.
Variable adjacent_pulses : list float.

(** What the noise check has established when it falls through. *)
Lemma check_response_noise_next (base : float) :
  check_response_noise median std post_rec window = Next base ->
  (clamp_mode post_rec = "ic"
   /\ (std (window_of (primary post_rec) window) >? f1_5e_3)%float = false
   /\ base = median (window_of (primary post_rec) window)
   /\ exists top : float,
        @ndarray_max (bool * bool) (window_of (primary post_rec) window)
        = Next top
        /\ (top >? - f40e_3)%float = false)
  \/ (clamp_mode post_rec = "vc"
      /\ (std (window_of (primary post_rec) window) >? f15e_12)%float = false
      /\ base = median (window_of (command post_rec) window)).
Proof.
  unfold check_response_noise. cbv zeta.
  destruct (String.eqb _ "ic") eqn:Hic.
  - apply String.eqb_eq in Hic.
    destruct (std (window_of (primary post_rec) window) >? f1_5e_3)%float
      eqn:Hstd; cbn [when bind]; [discriminate|].
    destruct (ndarray_max _) as [top| |] eqn:Hmax; cbn [bind];
      [|discriminate|discriminate].
    destruct (top >? - f40e_3)%float eqn:Htop; cbn [when bind];
      [discriminate|].
    intros [= Hbase]. subst base. left.
    repeat split; try reflexivity; try assumption.
    exists top. split; [reflexivity | assumption].
  - destruct (String.eqb _ "vc") eqn:Hvc; [|discriminate].
    apply String.eqb_eq in Hvc.
    destruct (std (window_of (primary post_rec) window) >? f15e_12)%float
      eqn:Hstd; cbn [when bind]; [discriminate|].
    intros [= Hbase]. subst base. right.
    repeat split; try reflexivity; assumption.
Qed.

(** X6.  A passing verdict, for either polarity, is only returned when
    the recording passes [recording_qc_pass], the spike count is not 0,
    no adjacent pulse is closer than 8e-3, the baseline potential of the
    recording and the window median both lie strictly inside
    (-85e-3, -45e-3), and the window passed the noise check of its clamp
    mode, current clamp or voltage clamp. *)
Theorem passing_verdict_requires (ex_qc_pass in_qc_pass : bool) :
  pulse_response_qc_pass median std post_rec window n_spikes adjacent_pulses
  = Ok (ex_qc_pass, in_qc_pass) ->
  ex_qc_pass = true \/ in_qc_pass = true ->
  recording_qc_pass post_rec = true
  /\ n_spikes <> Some 0
  /\ pulse_too_close adjacent_pulses = false
  /\ inside (- f85e_3) (- f45e_3) (baseline_potential post_rec)
  /\ ((clamp_mode post_rec = "ic"
       /\ (std (window_of (primary post_rec) window) >? f1_5e_3)%float
          = false
       /\ inside (- f85e_3) (- f45e_3)
            (median (window_of (primary post_rec) window))
       /\ exists top : float,
            @ndarray_max (bool * bool) (window_of (primary post_rec) window)
            = Next top
            /\ (top >? - f40e_3)%float = false)
      \/ (clamp_mode post_rec = "vc"
          /\ (std (window_of (primary post_rec) window) >? f15e_12)%float
             = false
          /\ inside (- f85e_3) (- f45e_3)
               (median (window_of (command post_rec) window)))).
Proof.
  rewrite pulse_response_qc_pass_steps.
  destruct (recording_qc_pass post_rec); cbn [negb];
    [|intros [= <- <-] [|]; discriminate].
  destruct (eq_int n_spikes 0) eqn:Hn;
    [intros [= <- <-] [|]; discriminate|].
  apply eq_int_0_false in Hn.
  destruct (check_response_noise median std post_rec window)
    as [base|r|e] eqn:Hnoise.
  - destruct (pulse_too_close adjacent_pulses);
      [intros [= <- <-] [|]; discriminate|].
    rewrite check_holding_potential_ranges. intros [= <- <-] Hpass.
    assert (Hin : inside (- f85e_3) (- f45e_3) base
                  /\ inside (- f85e_3) (- f45e_3)
                       (baseline_potential post_rec)).
    { destruct Hpass as [Hex | Hinh].
      - apply inside_true in Hex. exact Hex.
      - apply inside_true in Hinh. destruct Hinh as [Hbase Hbase2].
        split; apply overlap_inside_both; assumption. }
    destruct Hin as [Hbase Hbase2].
    apply check_response_noise_next in Hnoise.
    split; [reflexivity|]. split; [exact Hn|]. split; [reflexivity|].
    split; [exact Hbase2|].
    destruct Hnoise as [(Hic & Hstd & Heq & Htop) | (Hvc & Hstd & Heq)];
      subst base.
    + left. split; [exact Hic|]. split; [exact Hstd|].
      split; [exact Hbase | exact Htop].
    + right. split; [exact Hvc|]. split; [exact Hstd | exact Hbase].
  - apply check_response_noise_return in Hnoise. subst r.
    intros [= <- <-] [|]; discriminate.
  - discriminate.
Qed.

(** X7.  A baseline potential that is NaN or lies exactly on a limit,
    -85e-3 or -45e-3, never gets a passing verdict, although
    [recording_qc_pass] does not reject it. *)
Theorem limit_potential_never_passes (ex_qc_pass in_qc_pass : bool) :
  baseline_potential post_rec = (- f85e_3)%float
  \/ baseline_potential post_rec = (- f45e_3)%float
  \/ baseline_potential post_rec = Float.nan ->
  pulse_response_qc_pass median std post_rec window n_spikes adjacent_pulses
  = Ok (ex_qc_pass, in_qc_pass) ->
  ex_qc_pass = false /\ in_qc_pass = false.
Proof.
  intros Hpot. rewrite pulse_response_qc_pass_steps.
  destruct (negb _); [intros [= <- <-]; split; reflexivity|].
  destruct (eq_int _ _); [intros [= <- <-]; split; reflexivity|].
  destruct (check_response_noise median std post_rec window)
    as [base|r|e] eqn:Hnoise.
  - destruct (pulse_too_close _); [intros [= <- <-]; split; reflexivity|].
    rewrite outside_fails_both; [intros [= <- <-]; split; reflexivity|].
    intros [Hlo Hhi].
    destruct Hpot as [Hpot | [Hpot | Hpot]]; rewrite Hpot in Hlo, Hhi;
      vm_compute in Hlo, Hhi; discriminate.
  - apply check_response_noise_return in Hnoise. subst r.
    intros [= <- <-]; split; reflexivity.
  - discriminate.
Qed.

(** X8.  The call raises a [ValueError] exactly when, in current clamp,
    steps 1 and 2 pass, the standard deviation does not exceed its limit
    and the window holds no sample, so that its maximum is undefined. *)
Theorem empty_window_raises :
  (exists msg,
     pulse_response_qc_pass median std post_rec window n_spikes
       adjacent_pulses = Error (ValueError msg))
  <-> recording_qc_pass post_rec = true
      /\ n_spikes <> Some 0
      /\ clamp_mode post_rec = "ic"
      /\ (std (window_of (primary post_rec) window) >? f1_5e_3)%float
         = false
      /\ window_of (primary post_rec) window = [].
Proof.
  rewrite pulse_response_qc_pass_steps. split.
  - intros (msg & Herr). revert Herr.
    destruct (recording_qc_pass post_rec); cbn [negb]; [|discriminate].
    destruct (eq_int n_spikes 0) eqn:Hn; [discriminate|].
    apply eq_int_0_false in Hn.
    unfold check_response_noise. cbv zeta.
    destruct (String.eqb _ "ic") eqn:Hic.
    + apply String.eqb_eq in Hic.
      destruct (std (window_of (primary post_rec) window) >? f1_5e_3)%float
        eqn:Hstd; cbn [when bind]; [discriminate|].
      destruct (window_of (primary post_rec) window) as [|x rest];
        [tauto|].
      cbn [ndarray_max bind].
      destruct (fold_left maximum rest x >? - f40e_3)%float;
        cbn [when bind]; [discriminate|].
      destruct (pulse_too_close _); discriminate.
    + destruct (String.eqb _ "vc"); [|discriminate].
      destruct (std (window_of (primary post_rec) window) >? f15e_12)%float;
        cbn [when bind]; [discriminate|].
      destruct (pulse_too_close _); discriminate.
  - intros (Hrec & Hn & Hic & Hstd & Hempty).
    apply eq_int_0_false in Hn. rewrite Hrec, Hn. cbn [negb].
    unfold check_response_noise. rewrite Hic.
    change (String.eqb "ic" "ic") with true. cbn iota.
    rewrite Hstd, Hempty. cbn [when bind ndarray_max].
    eexists. reflexivity.
Qed.

(** X9.  The call returns a pair, and raises nothing, for every
    voltage-clamp recording whatever the window is, and for every
    current-clamp recording whose window holds at least one sample,
    [0 <= start < stop <= len(primary)]. *)
Theorem supported_modes_return :
  clamp_mode post_rec = "vc"
  \/ (clamp_mode post_rec = "ic"
      /\ 0 <= fst window < snd window
      /\ snd window <= len (primary post_rec)) ->
  exists verdict : bool * bool,
    pulse_response_qc_pass median std post_rec window n_spikes
      adjacent_pulses = Ok verdict.
Proof.
  intros Hmode. rewrite pulse_response_qc_pass_steps.
  destruct (negb _); [eexists; reflexivity|].
  destruct (eq_int _ _); [eexists; reflexivity|].
  unfold check_response_noise.
  destruct Hmode as [Hvc | (Hic & Horder & Hstop)].
  - rewrite Hvc. change (String.eqb "vc" "ic") with false.
    change (String.eqb "vc" "vc") with true. cbn iota.
    destruct (_ >? _)%float; cbn [when bind]; [eexists; reflexivity|].
    destruct (pulse_too_close _); eexists; reflexivity.
  - rewrite Hic. change (String.eqb "ic" "ic") with true. cbn iota.
    destruct (_ >? _)%float; cbn [when bind]; [eexists; reflexivity|].
    pose proof (window_nonempty (primary post_rec) window Horder Hstop)
      as Hne.
    destruct (window_of _ _) as [|x rest]; [congruence|].
    cbn [ndarray_max bind].
    destruct (_ >? _)%float; cbn [when bind]; [eexists; reflexivity|].
    destruct (pulse_too_close _); eexists; reflexivity.
Qed.

(** X10.  Only a spike count equal to 0 is rejected: with any other
    count, a negative one included, the call behaves as with no count
    at all. *)
Theorem nonzero_spike_count_unchecked (count : Z) :
  count <> 0 ->
  pulse_response_qc_pass median std post_rec window (Some count)
    adjacent_pulses
  = pulse_response_qc_pass median std post_rec window None adjacent_pulses.
Proof.
  intros Hcount. unfold pulse_response_qc_pass, eq_int.
  apply Z.eqb_neq in Hcount. rewrite Hcount. reflexivity.
Qed.

(** X11.  Only the distance of an adjacent pulse matters, not whether it
    comes before or after: negating every offset leaves the result as it
    is. *)
Theorem adjacent_pulse_sign_irrelevant :
  pulse_response_qc_pass median std post_rec window n_spikes
    (map Float.neg adjacent_pulses)
  = pulse_response_qc_pass median std post_rec window n_spikes
      adjacent_pulses.
Proof.
  rewrite !pulse_response_qc_pass_steps, pulse_too_close_neg. reflexivity.
Qed.

(** X12.  The order of the adjacent pulses does not matter: two lists
    that are permutations of each other give the same result. *)
Theorem adjacent_pulse_order_irrelevant (reordered : list float) :
  Permutation adjacent_pulses reordered ->
  pulse_response_qc_pass median std post_rec window n_spikes reordered
  = pulse_response_qc_pass median std post_rec window n_spikes
      adjacent_pulses.
Proof.
  intros Hperm. rewrite !pulse_response_qc_pass_steps.
  rewrite (pulse_too_close_perm _ _ Hperm). reflexivity.
Qed.

(** X13.  An adjacent pulse whose absolute value is not below 8e-3, a NaN
    offset included, has no effect on the result. *)
Theorem distant_pulse_ignored (t : float) :
  (Float.abs t <? f8e_3)%float = false ->
  pulse_response_qc_pass median std post_rec window n_spikes
    (t :: adjacent_pulses)
  = pulse_response_qc_pass median std post_rec window n_spikes
      adjacent_pulses.
Proof.
  intros Hfar. rewrite !pulse_response_qc_pass_steps.
  rewrite pulse_too_close_cons, Hfar. reflexivity.
Qed.

(** X14.  More adjacent pulses never help: with further pulses the call
    gives either the same result or the pair (false, false). *)
Theorem more_pulses_only_fail (more : list float) :
  pulse_response_qc_pass median std post_rec window n_spikes
    (adjacent_pulses ++ more)
  = pulse_response_qc_pass median std post_rec window n_spikes
      adjacent_pulses
  \/ pulse_response_qc_pass median std post_rec window n_spikes
       (adjacent_pulses ++ more) = Ok (false, false).
Proof.
  rewrite !pulse_response_qc_pass_steps, pulse_too_close_app.
  destruct (negb _); [left; reflexivity|].
  destruct (eq_int _ _); [left; reflexivity|].
  destruct (check_response_noise _ _ _ _); [|left; reflexivity..].
  destruct (pulse_too_close adjacent_pulses); cbn [orb];
    [left; reflexivity|].
  destruct (pulse_too_close more); [right | left]; reflexivity.
Qed.

(** X15.  Between -85e-3 and -60e-3 only the excitatory verdict passes:
    when the polarity step is reached with both values strictly inside
    (-85e-3, -45e-3) and one of them at most -60e-3, the call returns
    (true, false). *)
Theorem excitatory_only_below_inhibitory_range (base : float) :
  recording_qc_pass post_rec = true -> n_spikes <> Some 0 ->
  check_response_noise median std post_rec window = Next base ->
  pulse_too_close adjacent_pulses = false ->
  inside (- f85e_3) (- f45e_3) base ->
  inside (- f85e_3) (- f45e_3) (baseline_potential post_rec) ->
  (base <=? - f60e_3)%float = true
  \/ (baseline_potential post_rec <=? - f60e_3)%float = true ->
  pulse_response_qc_pass median std post_rec window n_spikes adjacent_pulses
  = Ok (true, false).
Proof.
  intros Hrec Hn Hnoise Hfar Hbase Hbase2 Hlow.
  apply eq_int_0_false in Hn.
  rewrite pulse_response_qc_pass_steps, Hrec, Hn, Hnoise, Hfar.
  rewrite check_holding_potential_ranges. cbn [negb].
  rewrite (proj2 (inside_true _ _ _ _) (conj Hbase Hbase2)).
  destruct Hlow as [Hlow | Hlow]; apply FloatFacts.le_not_gt in Hlow;
    rewrite Hlow; cbn [andb]; rewrite ?andb_false_r; reflexivity.
Qed.

(** X16.  In current clamp the command channel is never read: replacing
    it leaves the result as it is. *)
Theorem current_clamp_ignores_command (other : list float) :
  clamp_mode post_rec = "ic" ->
  pulse_response_qc_pass median std (with_command post_rec other) window
    n_spikes adjacent_pulses
  = pulse_response_qc_pass median std post_rec window n_spikes
      adjacent_pulses.
Proof.
  intros Hic. rewrite !pulse_response_qc_pass_steps.
  assert (Hrec : recording_qc_pass (with_command post_rec other)
                 = recording_qc_pass post_rec) by reflexivity.
  assert (Hnoise :
    check_response_noise median std (with_command post_rec other) window
    = check_response_noise median std post_rec window).
  { unfold check_response_noise, with_command.
    cbn [clamp_mode primary command]. rewrite Hic. reflexivity. }
  rewrite Hrec, Hnoise. reflexivity.
Qed.

End PulseResponseMore.

(** ** The further properties at concrete recordings *)

Lemma passing_verdict_requires_witness :
  recording_qc_pass rec_ic_overlap = true
  /\ inside (- f85e_3) (- f45e_3) (baseline_potential rec_ic_overlap).
Proof.
  assert (Hverdict : pulse_response_qc_pass np_median np_std rec_ic_overlap
                       (5, 15) (Some 1) [] = Ok (true, true))
    by (vm_compute; reflexivity).
  destruct (passing_verdict_requires np_median np_std rec_ic_overlap (5, 15)
              (Some 1) [] true true Hverdict (or_introl eq_refl))
    as (Hrec & _ & _ & Hpot & _).
  split; [exact Hrec | exact Hpot].
Defined.

Lemma limit_potential_never_passes_witness :
  recording_qc_pass rec_limit_flat = true
  /\ (exists ex_qc_pass in_qc_pass : bool,
        pulse_response_qc_pass np_median np_std rec_limit_flat (5, 15)
          (Some 1) [] = Ok (ex_qc_pass, in_qc_pass)
        /\ ex_qc_pass = false /\ in_qc_pass = false)
  /\ (exists ex_qc_pass in_qc_pass : bool,
        pulse_response_qc_pass np_median np_std rec_vc_nan_potential (5, 15)
          (Some 1) [] = Ok (ex_qc_pass, in_qc_pass)
        /\ ex_qc_pass = false /\ in_qc_pass = false).
Proof.
  split; [reflexivity|]. split.
  - exists false, false.
    assert (Hverdict : pulse_response_qc_pass np_median np_std
                         rec_limit_flat (5, 15) (Some 1) []
                       = Ok (false, false)) by (vm_compute; reflexivity).
    split; [exact Hverdict|].
    apply (limit_potential_never_passes np_median np_std
             rec_limit_flat (5, 15) (Some 1) [] false false);
      [left; reflexivity | exact Hverdict].
  - exists false, false.
    assert (Hverdict : pulse_response_qc_pass np_median np_std
                         rec_vc_nan_potential (5, 15) (Some 1) []
                       = Ok (false, false)) by (vm_compute; reflexivity).
    split; [exact Hverdict|].
    apply (limit_potential_never_passes np_median np_std
             rec_vc_nan_potential (5, 15) (Some 1) [] false false);
      [right; right; reflexivity | exact Hverdict].
Defined.

Lemma empty_window_raises_witness :
  (exists msg,
     pulse_response_qc_pass np_median np_std rec_ic (5, 5) (Some 1) []
     = Error (ValueError msg))
  /\ (exists msg,
        pulse_response_qc_pass np_median np_std rec_ic (15, 5) None []
        = Error (ValueError msg)).
Proof.
  split.
  - apply (proj2 (empty_window_raises np_median np_std rec_ic (5, 5)
                    (Some 1) [])).
    split; [reflexivity|]. split; [discriminate|].
    split; [reflexivity|]. split; vm_compute; reflexivity.
  - apply (proj2 (empty_window_raises np_median np_std rec_ic (15, 5)
                    None [])).
    split; [reflexivity|]. split; [discriminate|].
    split; [reflexivity|]. split; vm_compute; reflexivity.
Defined.

Lemma supported_modes_return_witness :
  (exists verdict : bool * bool,
     pulse_response_qc_pass np_median np_std rec_ic (5, 15) (Some 1) []
     = Ok verdict)
  /\ (exists verdict : bool * bool,
        pulse_response_qc_pass np_median np_std rec_vc (5, 5) (Some 1) []
        = Ok verdict).
Proof.
  split.
  - apply supported_modes_return. right.
    split; [reflexivity|]. vm_compute. repeat split; discriminate.
  - apply supported_modes_return. left. reflexivity.
Defined.

Lemma nonzero_spike_count_unchecked_witness :
  pulse_response_qc_pass np_median np_std rec_ic (5, 15) (Some (-3)) []
  = pulse_response_qc_pass np_median np_std rec_ic (5, 15) None [].
Proof.
  apply nonzero_spike_count_unchecked. discriminate.
Defined.

Lemma adjacent_pulse_order_irrelevant_witness :
  pulse_response_qc_pass np_median np_std rec_ic (5, 15) (Some 1)
    [f9e_3; f5e_3]
  = pulse_response_qc_pass np_median np_std rec_ic (5, 15) (Some 1)
      [f5e_3; f9e_3].
Proof.
  apply adjacent_pulse_order_irrelevant. apply perm_swap.
Defined.

Lemma distant_pulse_ignored_witness :
  pulse_response_qc_pass np_median np_std rec_ic (5, 15) (Some 1)
    [Float.nan; f9e_3]
  = pulse_response_qc_pass np_median np_std rec_ic (5, 15) (Some 1)
      [f9e_3].
Proof.
  apply distant_pulse_ignored. reflexivity.
Defined.

Lemma excitatory_only_below_inhibitory_range_witness :
  pulse_response_qc_pass np_median np_std rec_ic (5, 15) (Some 1) []
  = Ok (true, false).
Proof.
  apply (excitatory_only_below_inhibitory_range np_median np_std rec_ic
           (5, 15) (Some 1) [] (- f70e_3)%float).
  - reflexivity.
  - discriminate.
  - vm_compute. reflexivity.
  - reflexivity.
  - split; vm_compute; reflexivity.
  - split; vm_compute; reflexivity.
  - left. vm_compute. reflexivity.
Defined.

Lemma current_clamp_ignores_command_witness :
  pulse_response_qc_pass np_median np_std (with_command rec_ic [f1_0])
    (5, 15) (Some 1) []
  = pulse_response_qc_pass np_median np_std rec_ic (5, 15) (Some 1) [].
Proof.
  apply current_clamp_ignores_command. reflexivity.
Defined.
